(** * pitchside-analytics: the league standings tool

    A shallow embedding of [app/tools/football_tools.py] and the
    properties of its two functions, [_get_league_id] and
    [get_league_standings].

    The Python module keeps three globals ([API_FOOTBALL_KEY], [BASE_URL],
    [LEAGUE_MAP]), talks to the provider through [requests.get], and
    reshapes the parsed JSON body with subscripting that can raise.
    Accordingly the model has
    - [json]: the values [response.json()] produces, which are also the
      values the tool returns (dicts and lists of dicts);
    - [exn] and [res]: Python exceptions and the outcome of an expression;
    - [world]: the module globals, the network and the log of requests
      sent; [Py] is the state-and-exception monad over it. *)

From Stdlib Require Import ZArith String Ascii List Lia.
From stdpp Require Import gmap strings list fin_maps pretty.
Import ListNotations.

Set Warnings "-register-all".
Local Open Scope Z_scope.
Local Open Scope string_scope.

(** ** Python values *)

(** What [json.loads] builds: [None], [bool], [int], [str], [list] and
    [dict] with [str] keys. A dict keeps its insertion order (iterating it
    yields the keys in that order), so it is an association list; lookup
    takes the first binding of a key. Numbers are the integers: the tool
    only truth-tests, subscripts and iterates a value, and there a [float]
    behaves as an [int] does. A [str] is a string of one-byte characters. *)
Inductive json : Type :=
| JNull
| JBool (b : bool)
| JNum (n : Z)
| JStr (s : string)
| JArr (items : list json)
| JObj (fields : list (string * json)).

(** The exceptions the tool can meet. [RequestException] stands for the
    whole hierarchy under [requests.exceptions.RequestException]
    ([ConnectionError], [Timeout], [HTTPError], [JSONDecodeError], ...);
    it carries [str(e)]. The other four are the builtin faults of
    attribute access and subscripting. *)
Inductive exn : Type :=
| RequestException (text : string)
| KeyError (key : json)
| IndexError
| TypeError
| AttributeError.

(** Outcome of evaluating an expression. *)
Inductive res (A : Type) : Type :=
| Ok (a : A)
| Raise (e : exn).
Arguments Ok {A} a.
Arguments Raise {A} e.

Definition res_bind {A B : Type} (m : res A) (k : A -> res B) : res B :=
  match m with
  | Ok a => k a
  | Raise e => Raise e
  end.

Notation "'let*' x ':=' m 'in' k" := (res_bind m (fun x => k))
  (at level 10, x name, m at level 100, k at level 200).

(** Python truth value testing ([bool(x)], [not x]). *)
Class Truthy (A : Type) := truthy : A -> bool.

#[global] Instance Z_truthy : Truthy Z := fun n => negb (n =? 0)%Z.
#[global] Instance bool_truthy : Truthy bool := fun b => b.
#[global] Instance string_truthy : Truthy string :=
  fun s => match s with EmptyString => false | String _ _ => true end.
#[global] Instance list_truthy {A : Type} : Truthy (list A) :=
  fun l => match l with [] => false | _ :: _ => true end.
(** [None] is false; anything else has the truth value of its content. *)
#[global] Instance option_truthy {A : Type} `{Truthy A} : Truthy (option A) :=
  fun o => match o with None => false | Some a => truthy a end.
#[global] Instance json_truthy : Truthy json :=
  fun v =>
    match v with
    | JNull => false
    | JBool b => truthy b
    | JNum n => truthy n
    | JStr s => truthy s
    | JArr items => truthy items
    | JObj fields => truthy fields
    end.

(** First binding of [k] in a dict. *)
Fixpoint assoc (k : string) (fields : list (string * json)) : option json :=
  match fields with
  | [] => None
  | (k', v) :: rest => if String.eqb k k' then Some v else assoc k rest
  end.

(** [d.get(k)]: only a dict has the method; a missing key gives [None]. *)
Definition dict_get (d : json) (k : string) : res json :=
  match d with
  | JObj fields => Ok (default JNull (assoc k fields))
  | _ => Raise AttributeError
  end.

(** [v[k]] for a [str] key [k]: a dict looks the key up and raises
    [KeyError] when it is missing; lists and strings want integer indices
    and every other value is not subscriptable, all [TypeError]. *)
Definition getitem_str (v : json) (k : string) : res json :=
  match v with
  | JObj fields =>
      match assoc k fields with
      | Some x => Ok x
      | None => Raise (KeyError (JStr k))
      end
  | _ => Raise TypeError
  end.

(** [v[i]] for an index [i >= 0]: a list or a string gives its [i]-th
    element or raises [IndexError]; a dict looks up the key [i], which a
    dict with [str] keys never has; other values are not subscriptable. *)
Definition getitem_int (v : json) (i : nat) : res json :=
  match v with
  | JArr items =>
      match items !! i with
      | Some x => Ok x
      | None => Raise IndexError
      end
  | JStr s =>
      match String.get i s with
      | Some c => Ok (JStr (String c EmptyString))
      | None => Raise IndexError
      end
  | JObj _ => Raise (KeyError (JNum (Z.of_nat i)))
  | _ => Raise TypeError
  end.

(** Characters of a string, each as a one-character string. *)
Fixpoint chars (s : string) : list json :=
  match s with
  | EmptyString => []
  | String c rest => JStr (String c EmptyString) :: chars rest
  end.

(** [iter(v)], as a [for] clause consumes it: the elements of a list, the
    characters of a string, the keys of a dict. *)
Definition iterate (v : json) : res (list json) :=
  match v with
  | JArr items => Ok items
  | JStr s => Ok (chars s)
  | JObj fields => Ok (map (fun kv => JStr (fst kv)) fields)
  | _ => Raise TypeError
  end.

(** A list comprehension [[f x for x in xs]]: elements in order, the
    first exception ends it. *)
Fixpoint comprehension {A B : Type} (f : A -> res B) (xs : list A) : res (list B) :=
  match xs with
  | [] => Ok []
  | x :: rest =>
      let* y := f x in
      let* ys := comprehension f rest in
      Ok (y :: ys)
  end.

(** [str.lower()] on one character and on a string: the letters [A]-[Z]
    move to [a]-[z], every other byte stays, which is what Python does on
    ASCII text. The keys of the registry are ASCII. *)
Definition lower_char (c : ascii) : ascii :=
  let n := nat_of_ascii c in
  if (65 <=? n)%nat && (n <=? 90)%nat then ascii_of_nat (n + 32) else c.

Fixpoint lower (s : string) : string :=
  match s with
  | EmptyString => EmptyString
  | String c rest => String (lower_char c) (lower rest)
  end.

(** ** The module's globals, the provider and the interpreter state *)

(** The three module-level variables. [API_FOOTBALL_KEY] is what
    [os.getenv] returned, [None] when the variable is not set. *)
Record globals : Type := {
  API_FOOTBALL_KEY : option string;
  BASE_URL : string;
  LEAGUE_MAP : gmap string Z
}.

(** The globals as the module body assigns them at import. *)
Definition module_globals (key : option string) : globals :=
  {| API_FOOTBALL_KEY := key;
     BASE_URL := "https://v3.football.api-sports.io";
     LEAGUE_MAP :=
       list_to_map
         [("premier league", 39); ("la liga", 140); ("bundesliga", 78);
          ("serie a", 135); ("ligue 1", 61); ("mls", 253);
          ("champions league", 2)] |}.

(** One call of [requests.get(url, headers=..., params=...)]. *)
Record request : Type := {
  url : string;
  headers : json;
  params : json
}.

(** What [response.json()] will find in the body. *)
Inductive payload : Type :=
| NotJson (text : string)
| Json (data : json).

(** A [requests.Response], as far as the tool reads it. *)
Record Response : Type := {
  status_code : Z;
  reason : string;
  response_url : string;
  body : payload
}.

(** What the network does with a request: the transport fails with a
    [RequestException] of the given text (connection refused, timeout,
    ...), or a response comes back. *)
Inductive reply : Type :=
| TransportFailure (text : string)
| Answer (r : Response).

Record world : Type := {
  globs : globals;
  network : request -> reply;
  sent : list request
}.

(** Computations that read the globals and use the network. *)
Definition Py (A : Type) : Type := world -> res A * world.

Definition py_ret {A : Type} (a : A) : Py A := fun w => (Ok a, w).

Definition py_bind {A B : Type} (m : Py A) (k : A -> Py B) : Py B :=
  fun w =>
    match m w with
    | (Ok a, w') => k a w'
    | (Raise e, w') => (Raise e, w')
    end.

Definition py_lift {A : Type} (r : res A) : Py A := fun w => (r, w).

Definition py_global {A : Type} (var : globals -> A) : Py A :=
  fun w => (Ok (var (globs w)), w).

Notation "'let!' x ':=' m 'in' k" := (py_bind m (fun x => k))
  (at level 10, x name, m at level 100, k at level 200).

(** [try: body except requests.exceptions.RequestException as e: handler]:
    the handler sees [str(e)]; any other exception passes through. *)
Definition try_except_RequestException {A : Type}
    (body : Py A) (handler : string -> Py A) : Py A :=
  fun w =>
    match body w with
    | (Raise (RequestException text), w') => handler text w'
    | outcome => outcome
    end.

(** [requests.get]: the request goes out once, whatever comes of it. *)
Definition requests_get (endpoint : string) (hdrs prms : json) : Py Response :=
  fun w =>
    let rq := {| url := endpoint; headers := hdrs; params := prms |} in
    let w' := {| globs := globs w; network := network w;
                 sent := (sent w ++ [rq])%list |} in
    match network w rq with
    | TransportFailure text => (Raise (RequestException text), w')
    | Answer r => (Ok r, w')
    end.

(** [Response.raise_for_status()] of the requests library: an
    [HTTPError] for a 4xx or a 5xx status, nothing otherwise. *)
Definition raise_for_status (r : Response) : res unit :=
  let http_error_msg :=
    if (400 <=? status_code r)%Z && (status_code r <? 500)%Z then
      pretty (status_code r) +:+ " Client Error: " +:+ reason r
        +:+ " for url: " +:+ response_url r
    else if (500 <=? status_code r)%Z && (status_code r <? 600)%Z then
      pretty (status_code r) +:+ " Server Error: " +:+ reason r
        +:+ " for url: " +:+ response_url r
    else "" in
  if truthy http_error_msg then Raise (RequestException http_error_msg)
  else Ok tt.

(** [Response.json()]: the parsed body, or the library's
    [JSONDecodeError], a [RequestException]. *)
Definition response_json (r : Response) : res json :=
  match body r with
  | NotJson text => Raise (RequestException text)
  | Json data => Ok data
  end.

(** An [int] or [None] as a value. *)
Definition json_of_id (o : option Z) : json :=
  match o with
  | Some n => JNum n
  | None => JNull
  end.

Definition json_of_key (o : option string) : json :=
  match o with
  | Some s => JStr s
  | None => JNull
  end.

(** ** The tool *)

(** [LEAGUE_MAP.get(league_name.lower())] *)
Definition _get_league_id (league_name : string) : Py (option Z) :=
  let! registry := py_global LEAGUE_MAP in
  py_ret (registry !! lower league_name).

(** The dict built for one [team] of the comprehension; the seven
    subscript chains are evaluated in the order they are written. *)
Definition format_team (team : json) : res json :=
  let* rank := getitem_str team "rank" in
  let* t := getitem_str team "team" in
  let* name := getitem_str t "name" in
  let* points := getitem_str team "points" in
  let* a1 := getitem_str team "all" in
  let* played := getitem_str a1 "played" in
  let* a2 := getitem_str team "all" in
  let* win := getitem_str a2 "win" in
  let* a3 := getitem_str team "all" in
  let* draw := getitem_str a3 "draw" in
  let* a4 := getitem_str team "all" in
  let* lose := getitem_str a4 "lose" in
  Ok (JObj [("rank", rank); ("team", name); ("points", points);
            ("games_played", played); ("wins", win); ("draws", draw);
            ("losses", lose)]).

(** [data['response'][0]['league']['standings']] *)
Definition standings_groups (data : json) : res json :=
  let* r := getitem_str data "response" in
  let* first := getitem_int r 0 in
  let* league := getitem_str first "league" in
  getitem_str league "standings".

Definition no_standings : json :=
  JObj [("error", JStr "No standings found for this league and season.")].

(** From the emptiness check to [return formatted_standings]. The [or] of
    the check evaluates its right operand only when the left one is
    false. *)
Definition format_standings (data : json) : res json :=
  let* empty :=
    (let* r := dict_get data "response" in
     if negb (truthy r) then Ok true
     else
       let* groups := standings_groups data in
       Ok (negb (truthy groups))) in
  if (empty : bool) then Ok no_standings
  else
    let* groups := standings_groups data in
    let* standings := getitem_int groups 0 in
    let* teams := iterate standings in
    let* formatted_standings := comprehension format_team teams in
    Ok (JArr formatted_standings).

Definition get_league_standings (league_name season : string) : Py json :=
  let! league_id := _get_league_id league_name in
  if negb (truthy league_id) then
    py_ret (JObj [("error",
                   JStr ("Could not find a league with the name '"
                           +:+ league_name +:+ "'."))])
  else
    let! key := py_global API_FOOTBALL_KEY in
    let hdrs := JObj [("x-rapidapi-key", json_of_key key);
                      ("x-rapidapi-host", JStr "v3.football.api-sports.io")] in
    let prms := JObj [("league", json_of_id league_id);
                      ("season", JStr season)] in
    let! base := py_global BASE_URL in
    let endpoint := base +:+ "/standings" in
    try_except_RequestException
      (let! response := requests_get endpoint hdrs prms in
       let! _ := py_lift (raise_for_status response) in
       let! data := py_lift (response_json response) in
       py_lift (format_standings data))
      (fun e => py_ret (JObj [("error", JStr ("API request failed: " +:+ e))])).

(** ** Vocabulary of the properties *)

(** A position inside a JSON document, written as in the provider's
    documentation: [response[0].league.standings[0]] is
    [[Key "response"; Index 0; Key "league"; Key "standings"; Index 0]]. *)
Inductive step : Type :=
| Key (k : string)
| Index (i : nat).

Fixpoint at_path (p : list step) (v : json) : option json :=
  match p with
  | [] => Some v
  | Key k :: p' =>
      match v with
      | JObj fields =>
          match assoc k fields with
          | Some x => at_path p' x
          | None => None
          end
      | _ => None
      end
  | Index i :: p' =>
      match v with
      | JArr items =>
          match items !! i with
          | Some x => at_path p' x
          | None => None
          end
      | _ => None
      end
  end.

Definition first_group_path : list step :=
  [Key "response"; Index 0; Key "league"; Key "standings"; Index 0].

Definition groups_path : list step :=
  [Key "response"; Index 0; Key "league"; Key "standings"].

(** The Team Standing Record of a provider entry, field by field as the
    specification lists the mapping; [None] when the entry lacks one of the
    seven fields. *)
Definition team_standing_record (entry : json) : option json :=
  match at_path [Key "rank"] entry, at_path [Key "team"; Key "name"] entry,
        at_path [Key "points"] entry, at_path [Key "all"; Key "played"] entry,
        at_path [Key "all"; Key "win"] entry, at_path [Key "all"; Key "draw"] entry,
        at_path [Key "all"; Key "lose"] entry with
  | Some rank, Some name, Some points, Some played, Some win, Some draw, Some lose =>
      Some (JObj [("rank", rank); ("team", name); ("points", points);
                  ("games_played", played); ("wins", win); ("draws", draw);
                  ("losses", lose)])
  | _, _, _, _, _, _, _ => None
  end.

(** The two other Error Results. *)
Definition unknown_league (league_name : string) : json :=
  JObj [("error", JStr ("Could not find a league with the name '"
                          +:+ league_name +:+ "'."))].

Definition request_failed (text : string) : json :=
  JObj [("error", JStr ("API request failed: " +:+ text))].

(** The one request of a call, for a resolved league: the endpoint, the
    two headers and the two query parameters. *)
Definition standings_request (g : globals) (league_id : Z) (season : string) : request :=
  {| url := BASE_URL g +:+ "/standings";
     headers := JObj [("x-rapidapi-key", json_of_key (API_FOOTBALL_KEY g));
                      ("x-rapidapi-host", JStr "v3.football.api-sports.io")];
     params := JObj [("league", JNum league_id); ("season", JStr season)] |}.

(** The world after one more request went out. *)
Definition logged (rq : request) (w : world) : world :=
  {| globs := globs w; network := network w; sent := (sent w ++ [rq])%list |}.

(** The [except] clause, on the outcome of the [try] body. *)
Definition caught (r : res json) : res json :=
  match r with
  | Raise (RequestException text) => Ok (request_failed text)
  | other => other
  end.

(** The [try] body once the network has replied. *)
Definition after_reply (rp : reply) : res json :=
  match rp with
  | TransportFailure text => Raise (RequestException text)
  | Answer r =>
      let* _ := raise_for_status r in
      let* data := response_json r in
      format_standings data
  end.

(** A world whose network answers every request with [rp]. *)
Definition world_replying (key : option string) (rp : reply) : world :=
  {| globs := module_globals key; network := fun _ => rp; sent := [] |}.

(** A 200 response carrying [data]. *)
Definition ok_response (data : json) : Response :=
  {| status_code := 200; reason := "OK";
     response_url := "https://v3.football.api-sports.io/standings";
     body := Json data |}.

(** A provider document with the given standings groups. *)
Definition provider_doc (groups : list json) : json :=
  JObj [("get", JStr "standings");
        ("response",
         JArr [JObj [("league", JObj [("id", JNum 140);
                                      ("standings", JArr groups)])]])].

Definition real_madrid : json :=
  JObj [("rank", JNum 1);
        ("team", JObj [("id", JNum 541); ("name", JStr "Real Madrid")]);
        ("points", JNum 90);
        ("all", JObj [("played", JNum 38); ("win", JNum 29);
                      ("draw", JNum 3); ("lose", JNum 6)])].

(** The rows built from one standings group. *)
Definition format_group (standings : json) : res json :=
  let* teams := iterate standings in
  let* formatted_standings := comprehension format_team teams in
  Ok (JArr formatted_standings).

(** A group the tool never looks at. *)
Definition away_table : json :=
  JArr [JObj [("rank", JNum 1); ("team", JObj [("name", JStr "Barcelona")])]].

(** Two names that differ in the case of their letters only. *)
Inductive case_variant : string -> string -> Prop :=
| case_variant_nil : case_variant EmptyString EmptyString
| case_variant_cons (a b : ascii) (s t : string) :
    lower_char a = lower_char b ->
    case_variant s t ->
    case_variant (String a s) (String b t).

(** A 300 answer that carries a full standings document. *)
Definition multiple_choices_response : Response :=
  {| status_code := 300; reason := "Multiple Choices";
     response_url := "https://v3.football.api-sports.io/standings";
     body := Json (provider_doc [JArr [real_madrid]]) |}.

(** A team entry whose [team] object has no [name]. *)
Definition nameless_team : json :=
  JObj [("rank", JNum 1);
        ("team", JObj [("id", JNum 541)]);
        ("points", JNum 90);
        ("all", JObj [("played", JNum 38); ("win", JNum 29);
                      ("draw", JNum 3); ("lose", JNum 6)])].

(** A document whose first response element has no [league]. *)
Definition leagueless_doc : json :=
  JObj [("get", JStr "standings");
        ("response", JArr [JObj [("season", JNum 2024)]])].

(** A Team Standing Record: a dict with exactly the seven output fields,
    in the order the tool writes them. *)
Definition is_standing_record (v : json) : Prop :=
  exists rank name points played win draw lose,
    v = JObj [("rank", rank); ("team", name); ("points", points);
              ("games_played", played); ("wins", win); ("draws", draw);
              ("losses", lose)].

(** An Error Result: a dict with the single field [error], a string. *)
Definition is_error_result (v : json) : Prop :=
  exists message, v = JObj [("error", JStr message)].

(** The failures the [except] clause is there for: the transport raised,
    or the answer has a 4xx or 5xx status. *)
Definition signals_failure (rp : reply) : Prop :=
  match rp with
  | TransportFailure _ => True
  | Answer r => 400 <= status_code r < 600
  end.

(** [text] is [str(e)] of the exception such a failure raises. *)
Definition raised_text (rp : reply) (text : string) : Prop :=
  match rp with
  | TransportFailure t => t = text
  | Answer r => raise_for_status r = Raise (RequestException text)
  end.

(** A world whose module carries the registry [registry] in place of the
    one assigned at import, the other globals as imported. *)
Definition world_with_registry (registry : gmap string Z) (rp : reply) : world :=
  {| globs := {| API_FOOTBALL_KEY := None;
                 BASE_URL := "https://v3.football.api-sports.io";
                 LEAGUE_MAP := registry |};
     network := fun _ => rp;
     sent := [] |}.

(** A 200 answer whose body is an HTML page, not JSON. *)
Definition html_response : Response :=
  {| status_code := 200; reason := "OK";
     response_url := "https://v3.football.api-sports.io/standings";
     body := NotJson "Expecting value: line 1 column 1 (char 0)" |}.

(** A status that [raise_for_status] lets through. *)
Definition passes (r : Response) : Prop := ~ (400 <= status_code r < 600).

(** The exceptions subscripting a parsed document can end in. *)
Definition structural_fault (e : exn) : Prop :=
  e = TypeError \/ exists k, e = KeyError (JStr k).

(** A registry in which a league has the ID 0. *)
Definition registry_with_zero : gmap string Z :=
  <["friendlies" := 0]> (LEAGUE_MAP (module_globals None)).

(** One of the letters [A]-[Z]. *)
Definition is_upper (c : ascii) : Prop := (65 <= nat_of_ascii c <= 90)%nat.

(** [lowered] is [name] lowercased: each of the letters [A]-[Z] gives way
    to its lowercase letter, 32 code points up, and every other character
    stays. *)
Inductive lowercase_of : string -> string -> Prop :=
| lowercase_of_nil : lowercase_of EmptyString EmptyString
| lowercase_of_upper (a b : ascii) (s t : string) :
    is_upper a ->
    nat_of_ascii b = (nat_of_ascii a + 32)%nat ->
    lowercase_of s t ->
    lowercase_of (String a s) (String b t)
| lowercase_of_other (a : ascii) (s t : string) :
    ~ is_upper a ->
    lowercase_of s t ->
    lowercase_of (String a s) (String a t).

(** Two characters that are one letter, in either case. *)
Inductive same_letter : ascii -> ascii -> Prop :=
| same_letter_eq (a : ascii) : same_letter a a
| same_letter_up_low (a b : ascii) :
    is_upper a -> nat_of_ascii b = (nat_of_ascii a + 32)%nat -> same_letter a b
| same_letter_low_up (a b : ascii) :
    is_upper b -> nat_of_ascii a = (nat_of_ascii b + 32)%nat -> same_letter a b.

(** Two ASCII names that are spelled alike but for the case of letters. *)
Inductive ascii_spellings : string -> string -> Prop :=
| ascii_spellings_nil : ascii_spellings EmptyString EmptyString
| ascii_spellings_cons (a b : ascii) (s t : string) :
    (nat_of_ascii a < 128)%nat ->
    (nat_of_ascii b < 128)%nat ->
    same_letter a b ->
    ascii_spellings s t ->
    ascii_spellings (String a s) (String b t).

(** ** How a call runs *)

Lemma get_league_id_run league_name w :
  _get_league_id league_name w
  = (Ok (LEAGUE_MAP (globs w) !! lower league_name), w).
Proof. reflexivity. Qed.

Lemma run_unresolved league_name season w :
  truthy (LEAGUE_MAP (globs w) !! lower league_name) = false ->
  get_league_standings league_name season w
  = (Ok (unknown_league league_name), w).
Proof.
  intros Hfalse. unfold get_league_standings, py_bind.
  rewrite get_league_id_run, Hfalse. reflexivity.
Qed.

Lemma run_resolved league_name season w league_id :
  LEAGUE_MAP (globs w) !! lower league_name = Some league_id ->
  league_id <> 0 ->
  get_league_standings league_name season w
  = let rq := standings_request (globs w) league_id season in
    (caught (after_reply (network w rq)), logged rq w).
Proof.
  intros Hid Hnz. unfold get_league_standings, py_bind at 1.
  rewrite get_league_id_run, Hid.
  assert (Ht : truthy (Some league_id) = true).
  { unfold truthy, option_truthy, truthy, Z_truthy.
    apply negb_true_iff, Z.eqb_neq, Hnz. }
  rewrite Ht. cbn [negb].
  unfold py_bind, py_global, try_except_RequestException, requests_get,
    py_lift, py_ret. cbn -[format_standings raise_for_status].
  fold (standings_request (globs w) league_id season).
  fold (logged (standings_request (globs w) league_id season) w).
  destruct (network w _) as [text | r]; cbn -[format_standings raise_for_status].
  - reflexivity.
  - destruct (raise_for_status r) as [[] | e]; cbn -[format_standings].
    + destruct (response_json r) as [data | e]; cbn -[format_standings].
      * destruct (format_standings data) as [v | []]; reflexivity.
      * destruct e; reflexivity.
    + destruct e; reflexivity.
Qed.

(** ** The registry at import *)

Lemma registry_entries key k v :
  LEAGUE_MAP (module_globals key) !! k = Some v ->
  (k, v) ∈ [("premier league", 39); ("la liga", 140); ("bundesliga", 78);
            ("serie a", 135); ("ligue 1", 61); ("mls", 253);
            ("champions league", 2)].
Proof. intros H. apply elem_of_list_to_map_2 in H. exact H. Qed.

Ltac registry_cases H :=
  apply registry_entries in H;
  repeat (apply elem_of_cons in H as [H | H]; [inversion H; subst; clear H |]);
  [.. | apply elem_of_nil in H; destruct H].

Lemma registry_nonzero key k v :
  LEAGUE_MAP (module_globals key) !! k = Some v -> v <> 0.
Proof. intros H. registry_cases H; discriminate. Qed.

Lemma registry_keys_lower key k v :
  LEAGUE_MAP (module_globals key) !! k = Some v -> lower k = k.
Proof. intros H. registry_cases H; reflexivity. Qed.

(** ** Paths and subscripts *)

Lemma at_path_key k p v x :
  at_path (Key k :: p) v = Some x ->
  exists fields y, v = JObj fields /\ assoc k fields = Some y /\ at_path p y = Some x.
Proof.
  cbn. destruct v as [| | | | | fields]; try discriminate.
  destruct (assoc k fields) as [y |] eqn:E; [| discriminate].
  intros H. exists fields, y. auto.
Qed.

Lemma at_path_index i p v x :
  at_path (Index i :: p) v = Some x ->
  exists items y, v = JArr items /\ items !! i = Some y /\ at_path p y = Some x.
Proof.
  cbn. destruct v as [| | | | items |]; try discriminate.
  destruct (items !! i) as [y |] eqn:E; [| discriminate].
  intros H. exists items, y. auto.
Qed.

Lemma at_path_app p q v :
  at_path (p ++ q) v
  = match at_path p v with Some x => at_path q x | None => None end.
Proof.
  revert v. induction p as [| [k | i] p IH]; intros v; cbn; [reflexivity | |].
  - destruct v; try reflexivity. destruct (assoc k fields); [apply IH | reflexivity].
  - destruct v; try reflexivity. destruct (items !! i); [apply IH | reflexivity].
Qed.

(** When the document has a value at [response[0].league.standings], the
    subscript chain of the source reaches it, and [data.get('response')]
    is a non-empty list. *)
Lemma groups_reached data groups :
  at_path groups_path data = Some groups ->
  standings_groups data = Ok groups /\
  exists r, dict_get data "response" = Ok r /\ truthy r = true.
Proof.
  intros H. unfold groups_path in H.
  apply at_path_key in H as (fields & r & -> & Hr & H).
  apply at_path_index in H as (items & first & -> & Hfirst & H).
  apply at_path_key in H as (ffields & league & -> & Hleague & H).
  apply at_path_key in H as (lfields & g & -> & Hg & H).
  cbn in H. injection H as ->.
  split.
  - unfold standings_groups. cbn. rewrite Hr. cbn. rewrite Hfirst. cbn.
    rewrite Hleague. cbn. rewrite Hg. reflexivity.
  - exists (JArr items). cbn. rewrite Hr. split; [reflexivity |].
    destruct items; [discriminate Hfirst | reflexivity].
Qed.

(** The result depends on the document through its first group only. *)
Lemma format_standings_first_group data g :
  at_path first_group_path data = Some g ->
  format_standings data = format_group g.
Proof.
  intros H.
  change first_group_path with (groups_path ++ [Index 0])%list in H.
  rewrite at_path_app in H.
  destruct (at_path groups_path data) as [groups |] eqn:Hgroups; [| discriminate].
  apply at_path_index in H as (items & g' & -> & Hg & H).
  cbn in H. injection H as ->.
  destruct (groups_reached _ _ Hgroups) as (Hchain & r & Hget & Htrue).
  unfold format_standings. rewrite Hget. cbn -[standings_groups].
  rewrite Htrue. cbn -[standings_groups]. rewrite Hchain. cbn.
  destruct items as [| g0 rest]; [discriminate Hg |].
  cbn in Hg. injection Hg as ->. reflexivity.
Qed.

Lemma format_team_record entry row :
  team_standing_record entry = Some row -> format_team entry = Ok row.
Proof.
  unfold team_standing_record. cbn.
  destruct entry as [| | | | | fields]; try discriminate.
  destruct (assoc "rank" fields) as [rank |] eqn:Hrank; [| discriminate].
  destruct (assoc "team" fields) as [[| | | | | tfields] |] eqn:Hteam;
    try discriminate.
  destruct (assoc "name" tfields) as [name |] eqn:Hname; [| discriminate].
  destruct (assoc "points" fields) as [points |] eqn:Hpoints; [| discriminate].
  destruct (assoc "all" fields) as [[| | | | | afields] |] eqn:Hall;
    try discriminate.
  destruct (assoc "played" afields) as [played |] eqn:Hplayed; [| discriminate].
  destruct (assoc "win" afields) as [win |] eqn:Hwin; [| discriminate].
  destruct (assoc "draw" afields) as [draw |] eqn:Hdraw; [| discriminate].
  destruct (assoc "lose" afields) as [lose |] eqn:Hlose; [| discriminate].
  intros H. injection H as <-.
  unfold format_team, getitem_str.
  rewrite Hrank, Hteam, Hpoints, Hall. cbn.
  rewrite Hname, Hplayed, Hwin, Hdraw, Hlose. reflexivity.
Qed.

Lemma comprehension_records entries :
  Forall (fun e => is_Some (team_standing_record e)) entries ->
  exists rows,
    comprehension format_team entries = Ok rows /\
    Forall2 (fun e row => team_standing_record e = Some row) entries rows.
Proof.
  induction 1 as [| e entries [row Hrow] _ (rows & Hrows & Hall)].
  - exists []. split; [reflexivity | constructor].
  - exists (row :: rows). split.
    + cbn. rewrite (format_team_record _ _ Hrow). cbn. rewrite Hrows. reflexivity.
    + constructor; assumption.
Qed.

(** ** The HTTP status check *)

Lemma truthy_append (s t : string) :
  truthy (s +:+ t) = truthy s || truthy t.
Proof. destruct s; [destruct t |]; reflexivity. Qed.

Lemma raise_for_status_passes r :
  ~ (400 <= status_code r < 600) -> raise_for_status r = Ok tt.
Proof.
  intros Hst. unfold raise_for_status.
  destruct (400 <=? status_code r)%Z eqn:H4, (status_code r <? 500)%Z eqn:H5,
    (500 <=? status_code r)%Z eqn:H6, (status_code r <? 600)%Z eqn:H7;
    try reflexivity; exfalso; apply Hst; lia.
Qed.

Lemma raise_for_status_raises r :
  400 <= status_code r < 600 ->
  exists text, raise_for_status r = Raise (RequestException text).
Proof.
  intros Hst. unfold raise_for_status.
  destruct (400 <=? status_code r)%Z eqn:H4; [| lia].
  destruct (status_code r <? 500)%Z eqn:H5; cbn [andb].
  - rewrite !truthy_append. cbn. rewrite orb_true_r. eauto.
  - destruct (500 <=? status_code r)%Z eqn:H6; [| lia].
    destruct (status_code r <? 600)%Z eqn:H7; [| lia]. cbn [andb].
    rewrite !truthy_append. cbn. rewrite orb_true_r. eauto.
Qed.

(** A call that resolves its league and gets a parsable answer with a
    passing status returns what [format_standings] makes of the body. *)
Lemma run_answered key w league_name season league_id r data :
  globs w = module_globals key ->
  LEAGUE_MAP (globs w) !! lower league_name = Some league_id ->
  network w (standings_request (globs w) league_id season) = Answer r ->
  ~ (400 <= status_code r < 600) ->
  body r = Json data ->
  get_league_standings league_name season w
  = (caught (format_standings data),
     logged (standings_request (globs w) league_id season) w).
Proof.
  intros Hg Hid Hnet Hst Hbody.
  assert (Hnz : league_id <> 0).
  { rewrite Hg in Hid. exact (registry_nonzero _ _ _ Hid). }
  rewrite (run_resolved _ _ _ _ Hid Hnz). cbn zeta. rewrite Hnet.
  unfold after_reply, response_json.
  rewrite (raise_for_status_passes _ Hst), Hbody. reflexivity.
Qed.

(** ** Reshaping the provider document *)

(** C1. When the provider answers with a document whose
    [response[0].league.standings[0]] is a list of N team entries, each
    carrying rank, team.name, points, all.played, all.win, all.draw and
    all.lose, the tool returns a list of exactly N records, the i-th record
    being the Team Standing Record of the i-th entry (rank from rank, team
    from team.name, points from points, games_played from all.played, wins
    from all.win, draws from all.draw, losses from all.lose). *)
Theorem standings_rows_in_provider_order
    (key : option string) (w : world) (league_name season : string)
    (league_id : Z) (r : Response) (data : json) (entries : list json) :
  globs w = module_globals key ->
  LEAGUE_MAP (globs w) !! lower league_name = Some league_id ->
  network w (standings_request (globs w) league_id season) = Answer r ->
  ~ (400 <= status_code r < 600) ->
  body r = Json data ->
  at_path first_group_path data = Some (JArr entries) ->
  Forall (fun e => is_Some (team_standing_record e)) entries ->
  exists rows,
    fst (get_league_standings league_name season w) = Ok (JArr rows) /\
    length rows = length entries /\
    forall i e, entries !! i = Some e -> rows !! i = team_standing_record e.
Proof.
  intros Hg Hid Hnet Hst Hbody Hpath Hfields.
  rewrite (run_answered _ _ _ _ _ _ _ Hg Hid Hnet Hst Hbody).
  rewrite (format_standings_first_group _ _ Hpath).
  destruct (comprehension_records _ Hfields) as (rows & Hrows & Hall).
  exists rows. unfold format_group. cbn. rewrite Hrows. cbn.
  split; [reflexivity |]. split.
  - symmetry. exact (Forall2_length _ _ _ Hall).
  - intros i e He.
    destruct (Forall2_lookup_l _ _ _ _ _ Hall He) as (row & Hrow & Hrec).
    rewrite Hrow, Hrec. reflexivity.
Qed.

Lemma standings_rows_in_provider_order_witness :
  exists rows,
    fst (get_league_standings "La Liga" "2024"
           (world_replying (Some "secret")
              (Answer (ok_response (provider_doc [JArr [real_madrid]])))))
    = Ok (JArr rows) /\
    length rows = length [real_madrid] /\
    forall i e, [real_madrid] !! i = Some e -> rows !! i = team_standing_record e.
Proof.
  apply (standings_rows_in_provider_order (Some "secret") _ _ _ 140
           (ok_response (provider_doc [JArr [real_madrid]]))
           (provider_doc [JArr [real_madrid]]) [real_madrid]).
  - reflexivity.
  - vm_compute. reflexivity.
  - reflexivity.
  - cbn. lia.
  - reflexivity.
  - reflexivity.
  - constructor; [eexists; reflexivity | constructor].
Defined.

(** C7. Only the first standings group reaches the output. The rows
    returned are built from [response[0].league.standings[0]]: when that
    group is a list of entries carrying the seven fields, the result is the
    list of their records, one row per entry, in order. Every other group
    is discarded: two provider documents that agree on the first group give
    the same result, whatever other groups or fields they carry. *)
Theorem only_first_group_is_used
    (w1 w2 : world) (league_name season : string)
    (r1 r2 : Response) (d1 d2 g : json) :
  globs w1 = globs w2 ->
  (forall rq, network w1 rq = Answer r1) ->
  (forall rq, network w2 rq = Answer r2) ->
  ~ (400 <= status_code r1 < 600) ->
  ~ (400 <= status_code r2 < 600) ->
  body r1 = Json d1 ->
  body r2 = Json d2 ->
  at_path first_group_path d1 = Some g ->
  at_path first_group_path d2 = Some g ->
  fst (get_league_standings league_name season w1)
  = fst (get_league_standings league_name season w2)
  /\
  (forall league_id entries,
     LEAGUE_MAP (globs w1) !! lower league_name = Some league_id ->
     league_id <> 0 ->
     g = JArr entries ->
     Forall (fun e => is_Some (team_standing_record e)) entries ->
     exists rows,
       fst (get_league_standings league_name season w1) = Ok (JArr rows) /\
       fst (get_league_standings league_name season w2) = Ok (JArr rows) /\
       length rows = length entries /\
       Forall2 (fun e row => team_standing_record e = Some row) entries rows).
Proof.
  intros Hg Hn1 Hn2 Hs1 Hs2 Hb1 Hb2 Hp1 Hp2.
  assert (Hsame :
    fst (get_league_standings league_name season w1)
    = fst (get_league_standings league_name season w2)).
  { destruct (truthy (LEAGUE_MAP (globs w1) !! lower league_name)) eqn:Ht.
    - destruct (LEAGUE_MAP (globs w1) !! lower league_name) as [id |] eqn:Hid;
        [| discriminate Ht].
      assert (Hnz : id <> 0).
      { intros ->. discriminate Ht. }
      rewrite (run_resolved _ _ w1 _ Hid Hnz).
      rewrite Hg in Hid. rewrite (run_resolved _ _ w2 _ Hid Hnz).
      cbn zeta. rewrite Hn1, Hn2. unfold after_reply, response_json.
      rewrite (raise_for_status_passes _ Hs1), (raise_for_status_passes _ Hs2).
      rewrite Hb1, Hb2. cbn.
      rewrite (format_standings_first_group _ _ Hp1).
      rewrite (format_standings_first_group _ _ Hp2). reflexivity.
    - rewrite (run_unresolved _ _ w1 Ht).
      rewrite Hg in Ht. rewrite (run_unresolved _ _ w2 Ht). reflexivity. }
  split; [exact Hsame |].
  intros league_id entries Hid Hnz -> Hfields.
  rewrite <- Hsame.
  rewrite (run_resolved _ _ w1 _ Hid Hnz). cbn zeta. rewrite Hn1.
  unfold after_reply, response_json.
  rewrite (raise_for_status_passes _ Hs1), Hb1. cbn [fst res_bind].
  rewrite (format_standings_first_group _ _ Hp1).
  destruct (comprehension_records _ Hfields) as (rows & Hrows & Hall).
  exists rows. unfold format_group. cbn [iterate res_bind].
  rewrite Hrows. cbn.
  split; [reflexivity |]. split; [reflexivity |].
  split; [symmetry; exact (Forall2_length _ _ _ Hall) | exact Hall].
Qed.

Lemma only_first_group_is_used_witness :
  fst (get_league_standings "La Liga" "2024"
         (world_replying None
            (Answer (ok_response (provider_doc [JArr [real_madrid]; away_table])))))
  = fst (get_league_standings "La Liga" "2024"
           (world_replying None
              (Answer (ok_response (provider_doc [JArr [real_madrid]])))))
  /\
  (forall league_id entries,
     LEAGUE_MAP (module_globals None) !! lower "La Liga" = Some league_id ->
     league_id <> 0 ->
     JArr [real_madrid] = JArr entries ->
     Forall (fun e => is_Some (team_standing_record e)) entries ->
     exists rows,
       fst (get_league_standings "La Liga" "2024"
              (world_replying None
                 (Answer (ok_response
                            (provider_doc [JArr [real_madrid]; away_table])))))
       = Ok (JArr rows) /\
       fst (get_league_standings "La Liga" "2024"
              (world_replying None
                 (Answer (ok_response (provider_doc [JArr [real_madrid]])))))
       = Ok (JArr rows) /\
       length rows = length entries /\
       Forall2 (fun e row => team_standing_record e = Some row) entries rows).
Proof.
  apply (only_first_group_is_used
           (world_replying None
              (Answer (ok_response (provider_doc [JArr [real_madrid]; away_table]))))
           (world_replying None
              (Answer (ok_response (provider_doc [JArr [real_madrid]]))))
           "La Liga" "2024"
           (ok_response (provider_doc [JArr [real_madrid]; away_table]))
           (ok_response (provider_doc [JArr [real_madrid]]))
           (provider_doc [JArr [real_madrid]; away_table])
           (provider_doc [JArr [real_madrid]])
           (JArr [real_madrid])).
  - reflexivity.
  - intros rq. reflexivity.
  - intros rq. reflexivity.
  - cbn. lia.
  - cbn. lia.
  - reflexivity.
  - reflexivity.
  - reflexivity.
  - reflexivity.
Defined.

(** C4, as amended to bodies that are objects. When the parsed body is an
    object whose [response] field is absent or empty, or whose [response[0].league.standings] is empty, the
    tool returns exactly
    [{"error": "No standings found for this league and season."}].
    Empty is taken as Python takes it: any value that tests false. *)
Theorem empty_response_reports_no_standings
    (key : option string) (w : world) (league_name season : string)
    (league_id : Z) (r : Response) (fields : list (string * json)) :
  globs w = module_globals key ->
  LEAGUE_MAP (globs w) !! lower league_name = Some league_id ->
  network w (standings_request (globs w) league_id season) = Answer r ->
  ~ (400 <= status_code r < 600) ->
  body r = Json (JObj fields) ->
  assoc "response" fields = None \/
  (exists resp, assoc "response" fields = Some resp /\ truthy resp = false) \/
  (exists groups,
     at_path groups_path (JObj fields) = Some groups /\ truthy groups = false) ->
  fst (get_league_standings league_name season w)
  = Ok (JObj [("error", JStr "No standings found for this league and season.")]).
Proof.
  intros Hg Hid Hnet Hst Hbody Hempty.
  rewrite (run_answered _ _ _ _ _ _ _ Hg Hid Hnet Hst Hbody).
  cbn [fst]. unfold format_standings.
  destruct Hempty as [Habsent | [(resp & Hresp & Hfalse) | (groups & Hpath & Hfalse)]].
  - cbn. rewrite Habsent. reflexivity.
  - cbn -[truthy]. rewrite Hresp. cbn -[truthy]. rewrite Hfalse. reflexivity.
  - destruct (groups_reached _ _ Hpath) as (Hchain & resp & Hget & Htrue).
    rewrite Hget. cbn -[standings_groups truthy].
    rewrite Htrue. cbn -[standings_groups truthy].
    rewrite Hchain. cbn -[truthy]. rewrite Hfalse. reflexivity.
Qed.

Lemma empty_response_reports_no_standings_witness :
  fst (get_league_standings "Serie A" "1890"
         (world_replying None
            (Answer (ok_response (JObj [("results", JNum 0); ("response", JArr [])])))))
  = Ok (JObj [("error", JStr "No standings found for this league and season.")]).
Proof.
  apply (empty_response_reports_no_standings None _ _ _ 135
           (ok_response (JObj [("results", JNum 0); ("response", JArr [])]))
           [("results", JNum 0); ("response", JArr [])]).
  - reflexivity.
  - vm_compute. reflexivity.
  - reflexivity.
  - cbn. lia.
  - reflexivity.
  - right. left. exists (JArr []). split; reflexivity.
Defined.

(** C4, as stated, fails for a parsed body that is not an object: in the
    body [null] the [response] field is absent, and the tool raises
    [AttributeError] where the claim has it return the no-standings
    error. *)
Lemma null_body_is_not_reported_empty :
  at_path [Key "response"] JNull = None /\
  fst (get_league_standings "Serie A" "2024"
         (world_replying None (Answer (ok_response JNull))))
  = Raise AttributeError /\
  fst (get_league_standings "Serie A" "2024"
         (world_replying None (Answer (ok_response JNull))))
  <> Ok (JObj [("error", JStr "No standings found for this league and season.")]).
Proof.
  assert (Hrun :
    fst (get_league_standings "Serie A" "2024"
           (world_replying None (Answer (ok_response JNull))))
    = Raise AttributeError).
  { vm_compute. reflexivity. }
  split; [reflexivity |]. split; [exact Hrun |]. rewrite Hrun. discriminate.
Qed.

(** ** Resolving the league *)

(** C2. A league name whose lowercase form is not a key of the registry
    gets the single error object
    [{"error": "Could not find a league with the name '<league_name>'."}],
    the name put in as given, and the world is left as it was: no request
    is sent. *)
Theorem unknown_league_sends_nothing
    (w : world) (league_name season : string) :
  LEAGUE_MAP (globs w) !! lower league_name = None ->
  get_league_standings league_name season w
  = (Ok (JObj [("error",
                JStr ("Could not find a league with the name '"
                        +:+ league_name +:+ "'."))]), w)
  /\ sent (snd (get_league_standings league_name season w)) = sent w.
Proof.
  intros Habsent.
  assert (Hrun := run_unresolved league_name season w).
  rewrite Habsent in Hrun. specialize (Hrun eq_refl).
  rewrite Hrun. split; reflexivity.
Qed.

Lemma unknown_league_sends_nothing_witness :
  get_league_standings "Unknown League" "2024"
    (world_replying None (Answer (ok_response (provider_doc [JArr [real_madrid]]))))
  = (Ok (JObj [("error",
                JStr "Could not find a league with the name 'Unknown League'.")]),
     world_replying None (Answer (ok_response (provider_doc [JArr [real_madrid]]))))
  /\ sent (snd (get_league_standings "Unknown League" "2024"
                  (world_replying None
                     (Answer (ok_response (provider_doc [JArr [real_madrid]]))))))
     = [].
Proof.
  apply (unknown_league_sends_nothing
           (world_replying None
              (Answer (ok_response (provider_doc [JArr [real_madrid]]))))
           "Unknown League" "2024").
  vm_compute. reflexivity.
Defined.

Lemma sent_grows rq w : logged rq w <> w.
Proof.
  intros H. apply (f_equal sent) in H. cbn in H.
  apply (f_equal (@length request)) in H. rewrite length_app in H. cbn in H. lia.
Qed.

(** C10. Every ID of the registry is a nonzero integer, so the test
    [if not league_id] is a test for [None]: it succeeds exactly when the
    lowercased name is not a key, and the call ends in the unresolved-league
    error exactly then, never for a league that resolved. *)
Theorem truthiness_test_is_absence_test
    (key : option string) (w : world) (league_name season : string) :
  globs w = module_globals key ->
  map_Forall (fun _ league_id => league_id <> 0) (LEAGUE_MAP (globs w)) /\
  (negb (truthy (LEAGUE_MAP (globs w) !! lower league_name)) = true
   <-> LEAGUE_MAP (globs w) !! lower league_name = None) /\
  (get_league_standings league_name season w
   = (Ok (unknown_league league_name), w)
   <-> LEAGUE_MAP (globs w) !! lower league_name = None).
Proof.
  intros Hg. split; [| split].
  - intros k v Hkv. rewrite Hg in Hkv. exact (registry_nonzero _ _ _ Hkv).
  - destruct (LEAGUE_MAP (globs w) !! lower league_name) as [id |] eqn:Hid.
    + assert (Hnz : id <> 0).
      { rewrite Hg in Hid. exact (registry_nonzero _ _ _ Hid). }
      split; [| discriminate].
      unfold truthy, option_truthy, truthy, Z_truthy.
      rewrite negb_involutive. intros H. apply Z.eqb_eq in H. contradiction.
    + split; reflexivity.
  - destruct (LEAGUE_MAP (globs w) !! lower league_name) as [id |] eqn:Hid.
    + assert (Hnz : id <> 0).
      { rewrite Hg in Hid. exact (registry_nonzero _ _ _ Hid). }
      split; [| discriminate].
      rewrite (run_resolved _ _ _ _ Hid Hnz). cbn zeta.
      intros H. injection H as _ H. exfalso. exact (sent_grows _ _ H).
    + split; [reflexivity |]. intros _. apply run_unresolved.
      rewrite Hid. reflexivity.
Qed.

Lemma truthiness_test_is_absence_test_witness :
  map_Forall (fun _ league_id => league_id <> 0)
    (LEAGUE_MAP (globs (world_replying None (TransportFailure "down")))) /\
  (negb (truthy (LEAGUE_MAP (globs (world_replying None (TransportFailure "down")))
                   !! lower "Champions League")) = true
   <-> LEAGUE_MAP (globs (world_replying None (TransportFailure "down")))
         !! lower "Champions League" = None) /\
  (get_league_standings "Champions League" "2024"
     (world_replying None (TransportFailure "down"))
   = (Ok (unknown_league "Champions League"),
      world_replying None (TransportFailure "down"))
   <-> LEAGUE_MAP (globs (world_replying None (TransportFailure "down")))
         !! lower "Champions League" = None).
Proof.
  apply (truthiness_test_is_absence_test None
           (world_replying None (TransportFailure "down"))
           "Champions League" "2024").
  reflexivity.
Defined.

Lemma case_variant_lower s t : case_variant s t -> lower s = lower t.
Proof.
  induction 1 as [| a b s t Hab _ IH]; [reflexivity |].
  cbn. rewrite Hab, IH. reflexivity.
Qed.

(** C6. Resolution ignores case: a name that differs from a key of the
    registry in the case of its letters only resolves to that key's ID; so
    "Premier League", "premier league" and "PREMIER LEAGUE" all resolve to
    39. *)
Theorem resolution_ignores_case
    (key : option string) (w : world) (k name : string) (league_id : Z) :
  globs w = module_globals key ->
  LEAGUE_MAP (globs w) !! k = Some league_id ->
  case_variant name k ->
  _get_league_id name w = (Ok (Some league_id), w) /\
  _get_league_id "Premier League" w = (Ok (Some 39), w) /\
  _get_league_id "premier league" w = (Ok (Some 39), w) /\
  _get_league_id "PREMIER LEAGUE" w = (Ok (Some 39), w).
Proof.
  intros Hg Hk Hvar. rewrite !get_league_id_run. split.
  - rewrite (case_variant_lower _ _ Hvar).
    assert (Hlow : lower k = k).
    { rewrite Hg in Hk. exact (registry_keys_lower _ _ _ Hk). }
    rewrite Hlow, Hk. reflexivity.
  - rewrite Hg. repeat split; vm_compute; reflexivity.
Qed.

Lemma resolution_ignores_case_witness :
  _get_league_id "BundesLiga" (world_replying None (TransportFailure "down"))
  = (Ok (Some 78), world_replying None (TransportFailure "down")) /\
  _get_league_id "Premier League" (world_replying None (TransportFailure "down"))
  = (Ok (Some 39), world_replying None (TransportFailure "down")) /\
  _get_league_id "premier league" (world_replying None (TransportFailure "down"))
  = (Ok (Some 39), world_replying None (TransportFailure "down")) /\
  _get_league_id "PREMIER LEAGUE" (world_replying None (TransportFailure "down"))
  = (Ok (Some 39), world_replying None (TransportFailure "down")).
Proof.
  apply (resolution_ignores_case None
           (world_replying None (TransportFailure "down"))
           "bundesliga" "BundesLiga" 78).
  - reflexivity.
  - vm_compute. reflexivity.
  - repeat (constructor; [reflexivity |]). constructor.
Defined.

Lemma lower_char_upper a :
  is_upper a -> lower_char a = ascii_of_nat (nat_of_ascii a + 32).
Proof.
  unfold is_upper, lower_char. intros [Hlo Hhi].
  apply Nat.leb_le in Hlo, Hhi. rewrite Hlo, Hhi. reflexivity.
Qed.

Lemma lower_char_other a : ~ is_upper a -> lower_char a = a.
Proof.
  unfold is_upper, lower_char. intros Hnot.
  destruct (65 <=? nat_of_ascii a)%nat eqn:Hlo; [| reflexivity].
  destruct (nat_of_ascii a <=? 90)%nat eqn:Hhi; [| reflexivity].
  apply Nat.leb_le in Hlo, Hhi. exfalso. apply Hnot. split; assumption.
Qed.

Lemma is_upper_dec a : is_upper a \/ ~ is_upper a.
Proof. unfold is_upper. lia. Qed.

(** Every name has a lowercase form, the one [lower] computes, and no
    other. *)
Lemma lowercase_of_lower s : lowercase_of s (lower s).
Proof.
  induction s as [| a s IH]; cbn; [constructor |].
  destruct (is_upper_dec a) as [Hup | Hnot].
  - rewrite (lower_char_upper _ Hup). apply lowercase_of_upper; [exact Hup | | exact IH].
    apply nat_ascii_embedding. unfold is_upper in Hup. lia.
  - rewrite (lower_char_other _ Hnot). apply lowercase_of_other; assumption.
Qed.

Lemma lowercase_of_unique s t : lowercase_of s t -> t = lower s.
Proof.
  induction 1 as [| a b s t Hup Hb _ IH | a s t Hnot _ IH]; cbn.
  - reflexivity.
  - rewrite (lower_char_upper _ Hup), <- Hb, ascii_nat_embedding, IH. reflexivity.
  - rewrite (lower_char_other _ Hnot), IH. reflexivity.
Qed.

(** C9. [_get_league_id] lowercases the name and looks the lowercase form
    up in the League Registry: whatever the name, it returns the registered
    ID when the lowercase form is a key and [None] when it is not, raises
    nothing, and leaves the world, the registry included, as it found
    it. *)
Theorem get_league_id_contract
    (key : option string) (w : world) (league_name lowered : string) :
  globs w = module_globals key ->
  lowercase_of league_name lowered ->
  (forall league_id,
     LEAGUE_MAP (module_globals key) !! lowered = Some league_id ->
     fst (_get_league_id league_name w) = Ok (Some league_id)) /\
  (LEAGUE_MAP (module_globals key) !! lowered = None ->
   fst (_get_league_id league_name w) = Ok None) /\
  (forall e, fst (_get_league_id league_name w) <> Raise e) /\
  snd (_get_league_id league_name w) = w /\
  LEAGUE_MAP (globs (snd (_get_league_id league_name w)))
  = LEAGUE_MAP (module_globals key).
Proof.
  intros Hg Hlow. rewrite get_league_id_run. cbn [fst snd].
  rewrite (lowercase_of_unique _ _ Hlow), Hg.
  split; [| split; [| split; [| split]]].
  - intros league_id ->. reflexivity.
  - intros ->. reflexivity.
  - intros e. discriminate.
  - reflexivity.
  - reflexivity.
Qed.

Lemma get_league_id_contract_witness :
  (forall league_id,
     LEAGUE_MAP (module_globals None) !! "la liga" = Some league_id ->
     fst (_get_league_id "La Liga" (world_replying None (TransportFailure "down")))
     = Ok (Some league_id)) /\
  (LEAGUE_MAP (module_globals None) !! "la liga" = None ->
   fst (_get_league_id "La Liga" (world_replying None (TransportFailure "down")))
   = Ok None) /\
  (forall e,
     fst (_get_league_id "La Liga" (world_replying None (TransportFailure "down")))
     <> Raise e) /\
  snd (_get_league_id "La Liga" (world_replying None (TransportFailure "down")))
  = world_replying None (TransportFailure "down") /\
  LEAGUE_MAP
    (globs (snd (_get_league_id "La Liga"
                   (world_replying None (TransportFailure "down")))))
  = LEAGUE_MAP (module_globals None).
Proof.
  apply (get_league_id_contract None
           (world_replying None (TransportFailure "down")) "La Liga" "la liga").
  - reflexivity.
  - apply lowercase_of_upper; [unfold is_upper; vm_compute; lia | reflexivity |].
    apply lowercase_of_other; [unfold is_upper; vm_compute; lia |].
    apply lowercase_of_other; [unfold is_upper; vm_compute; lia |].
    apply lowercase_of_upper; [unfold is_upper; vm_compute; lia | reflexivity |].
    apply lowercase_of_other; [unfold is_upper; vm_compute; lia |].
    apply lowercase_of_other; [unfold is_upper; vm_compute; lia |].
    apply lowercase_of_other; [unfold is_upper; vm_compute; lia |].
    apply lowercase_of_nil.
Defined.

(** ** Failures of the request *)

(** X15. When the transport raises (network error, timeout) or the answer
    carries a 4xx or 5xx status, the tool returns
    [{"error": "API request failed: <text>"}] with the text of the
    exception raised, raises nothing itself, and has sent exactly one
    request. *)
Theorem request_failure_is_reported
    (key : option string) (w : world) (league_name season : string)
    (league_id : Z) (rp : reply) :
  globs w = module_globals key ->
  LEAGUE_MAP (globs w) !! lower league_name = Some league_id ->
  network w (standings_request (globs w) league_id season) = rp ->
  signals_failure rp ->
  exists text,
    raised_text rp text /\
    fst (get_league_standings league_name season w)
    = Ok (JObj [("error", JStr ("API request failed: " +:+ text))]) /\
    sent (snd (get_league_standings league_name season w))
    = (sent w ++ [standings_request (globs w) league_id season])%list.
Proof.
  intros Hg Hid Hnet Hfail.
  assert (Hnz : league_id <> 0).
  { rewrite Hg in Hid. exact (registry_nonzero _ _ _ Hid). }
  rewrite (run_resolved _ _ _ _ Hid Hnz). cbn zeta. rewrite Hnet.
  destruct rp as [text | r]; cbn [fst snd].
  - exists text. repeat split.
  - destruct (raise_for_status_raises r Hfail) as (text & Hraise).
    exists text. split; [exact Hraise |].
    unfold after_reply. rewrite Hraise. split; reflexivity.
Qed.

Lemma request_failure_is_reported_witness :
  exists text,
    raised_text (TransportFailure "Connection refused") text /\
    fst (get_league_standings "MLS" "2024"
           (world_replying (Some "secret") (TransportFailure "Connection refused")))
    = Ok (JObj [("error", JStr ("API request failed: " +:+ text))]) /\
    sent (snd (get_league_standings "MLS" "2024"
                 (world_replying (Some "secret")
                    (TransportFailure "Connection refused"))))
    = ([] ++ [standings_request (module_globals (Some "secret")) 253 "2024"])%list.
Proof.
  apply (request_failure_is_reported (Some "secret")
           (world_replying (Some "secret") (TransportFailure "Connection refused"))
           "MLS" "2024" 253 (TransportFailure "Connection refused")).
  - reflexivity.
  - vm_compute. reflexivity.
  - reflexivity.
  - exact I.
Defined.

(** C3 at the input that breaks it: the server answers 300, outside 2xx,
    with a standings document in the body. [raise_for_status] raises for
    4xx and 5xx only, so nothing is caught: the document is reshaped and
    returned as for a 200, where the claim, and the comment on the call
    ("checks if the request was successful"), have an error object. *)
Lemma status_300_is_not_reported :
  ~ (200 <= status_code multiple_choices_response < 300) /\
  fst (get_league_standings "La Liga" "2024"
         (world_replying None (Answer multiple_choices_response)))
  = Ok (JArr [JObj [("rank", JNum 1); ("team", JStr "Real Madrid");
                    ("points", JNum 90); ("games_played", JNum 38);
                    ("wins", JNum 29); ("draws", JNum 3); ("losses", JNum 6)]]) /\
  forall text,
    fst (get_league_standings "La Liga" "2024"
           (world_replying None (Answer multiple_choices_response)))
    <> Ok (JObj [("error", JStr ("API request failed: " +:+ text))]).
Proof.
  split; [cbn; lia |].
  assert (Hrun :
    fst (get_league_standings "La Liga" "2024"
           (world_replying None (Answer multiple_choices_response)))
    = Ok (JArr [JObj [("rank", JNum 1); ("team", JStr "Real Madrid");
                      ("points", JNum 90); ("games_played", JNum 38);
                      ("wins", JNum 29); ("draws", JNum 3); ("losses", JNum 6)]])).
  { vm_compute. reflexivity. }
  split; [exact Hrun |]. intros text. rewrite Hrun. discriminate.
Qed.

(** ** What comes back *)

(** What holds of every returned value: it is a list of Team Standing
    Records or one Error Result, never a list with an error in it. *)
Lemma format_team_shape team row :
  format_team team = Ok row -> is_standing_record row.
Proof.
  unfold format_team. intros H.
  repeat match type of H with
         | context [res_bind ?m _] =>
             destruct m eqn:?; cbn [res_bind] in H; [| discriminate H]
         end.
  injection H as <-. unfold is_standing_record. eauto 10.
Qed.

Lemma comprehension_shape teams rows :
  comprehension format_team teams = Ok rows -> Forall is_standing_record rows.
Proof.
  revert rows. induction teams as [| t teams IH]; intros rows; cbn.
  - intros H. injection H as <-. constructor.
  - destruct (format_team t) as [row |] eqn:Hrow; cbn; [| discriminate].
    destruct (comprehension format_team teams) as [rest |]; cbn; [| discriminate].
    intros H. injection H as <-.
    constructor; [exact (format_team_shape _ _ Hrow) | apply IH; reflexivity].
Qed.

Lemma format_standings_shape data v :
  format_standings data = Ok v ->
  v = no_standings \/ exists rows, v = JArr rows /\ Forall is_standing_record rows.
Proof.
  unfold format_standings. intros H.
  repeat match type of H with
         | context [res_bind ?m _] =>
             destruct m eqn:?; cbn [res_bind] in H; [| discriminate H]
         | context [if ?b then _ else _] => destruct b eqn:?
         end.
  - injection H as <-. left. reflexivity.
  - injection H as <-. right. eexists. split; [reflexivity |].
    eapply comprehension_shape. eassumption.
Qed.

Lemma returned_value_shape w league_name season v :
  fst (get_league_standings league_name season w) = Ok v ->
  is_error_result v \/ exists rows, v = JArr rows /\ Forall is_standing_record rows.
Proof.
  destruct (truthy (LEAGUE_MAP (globs w) !! lower league_name)) eqn:Ht.
  - destruct (LEAGUE_MAP (globs w) !! lower league_name) as [id |] eqn:Hid;
      [| discriminate Ht].
    assert (Hnz : id <> 0) by (intros ->; discriminate Ht).
    rewrite (run_resolved _ _ _ _ Hid Hnz). cbn [fst].
    destruct (network w _) as [text | r]; cbn.
    + intros H. injection H as <-. left. eexists. reflexivity.
    + destruct (raise_for_status r) as [[] | []]; cbn;
        try discriminate;
        [| intros H; injection H as <-; left; eexists; reflexivity].
      destruct (response_json r) as [data | []]; cbn;
        try discriminate;
        [| intros H; injection H as <-; left; eexists; reflexivity].
      destruct (format_standings data) as [v' | []] eqn:Hfmt; cbn;
        try discriminate;
        [| intros H; injection H as <-; left; eexists; reflexivity].
      intros H. injection H as <-.
      destruct (format_standings_shape _ _ Hfmt) as [-> | Hrows];
        [left; eexists; reflexivity | right; exact Hrows].
  - rewrite (run_unresolved _ _ _ Ht). cbn.
    intros H. injection H as <-. left. eexists. reflexivity.
Qed.

(** C5 at the input that breaks it: the provider answers with one
    standings group and that group is empty. The emptiness check looks at
    the list of groups, not into the first group, and the tool returns the
    empty list. *)
Theorem empty_first_group_gives_empty_list :
  at_path first_group_path (provider_doc [JArr []]) = Some (JArr []) /\
  fst (get_league_standings "Premier League" "2024"
         (world_replying None (Answer (ok_response (provider_doc [JArr []])))))
  = Ok (JArr []).
Proof. split; vm_compute; reflexivity. Qed.

(** C8. A provider document whose shape is off past the two emptiness
    checks makes the tool raise, not return an error object: a team entry
    without [team.name] ends in [KeyError: 'name'], a first response
    element without [league] in [KeyError: 'league']. Neither is a
    [RequestException], so the [except] clause lets them through. *)
Theorem structural_mismatch_propagates :
  fst (get_league_standings "La Liga" "2024"
         (world_replying None
            (Answer (ok_response (provider_doc [JArr [nameless_team]])))))
  = Raise (KeyError (JStr "name")) /\
  fst (get_league_standings "La Liga" "2024"
         (world_replying None (Answer (ok_response leagueless_doc))))
  = Raise (KeyError (JStr "league")).
Proof. split; vm_compute; reflexivity. Qed.

(** ** Beyond the claims: the request *)

Lemma run_passing_answer w league_name season league_id r :
  LEAGUE_MAP (globs w) !! lower league_name = Some league_id ->
  league_id <> 0 ->
  network w (standings_request (globs w) league_id season) = Answer r ->
  passes r ->
  get_league_standings league_name season w
  = (caught (let* data := response_json r in format_standings data),
     logged (standings_request (globs w) league_id season) w).
Proof.
  intros Hid Hnz Hnet Hst.
  rewrite (run_resolved _ _ _ _ Hid Hnz). cbn zeta. rewrite Hnet.
  unfold after_reply. rewrite (raise_for_status_passes _ Hst). reflexivity.
Qed.

(** X1. Once the league resolves, the call sends exactly one request,
    whatever the network does with it and whether the call then returns
    rows, returns an error or raises: a GET of [BASE_URL + "/standings"]
    with the key header as [API_FOOTBALL_KEY] holds it ([None] when unset),
    the fixed host header, the resolved ID as [league] and the season string
    as it was given. The globals are as before. *)
Theorem resolved_call_sends_one_request
    (w : world) (league_name season : string) (league_id : Z) :
  LEAGUE_MAP (globs w) !! lower league_name = Some league_id ->
  league_id <> 0 ->
  sent (snd (get_league_standings league_name season w))
  = (sent w ++
     [{| url := BASE_URL (globs w) +:+ "/standings";
         headers :=
           JObj [("x-rapidapi-key", json_of_key (API_FOOTBALL_KEY (globs w)));
                 ("x-rapidapi-host", JStr "v3.football.api-sports.io")];
         params := JObj [("league", JNum league_id); ("season", JStr season)] |}])%list
  /\ globs (snd (get_league_standings league_name season w)) = globs w.
Proof.
  intros Hid Hnz. rewrite (run_resolved _ _ _ _ Hid Hnz). split; reflexivity.
Qed.

Lemma resolved_call_sends_one_request_witness :
  sent (snd (get_league_standings "Ligue 1" ""
               (world_replying None (Answer html_response))))
  = ([] ++
     [{| url := "https://v3.football.api-sports.io" +:+ "/standings";
         headers :=
           JObj [("x-rapidapi-key", json_of_key None);
                 ("x-rapidapi-host", JStr "v3.football.api-sports.io")];
         params := JObj [("league", JNum 61); ("season", JStr "")] |}])%list
  /\ globs (snd (get_league_standings "Ligue 1" ""
                   (world_replying None (Answer html_response))))
     = module_globals None.
Proof.
  apply (resolved_call_sends_one_request
           (world_replying None (Answer html_response)) "Ligue 1" "" 61).
  - vm_compute. reflexivity.
  - lia.
Defined.

(** X2. No call writes a global or changes the network, and no call sends
    more than one request: the log after the call is the log before it, or
    that log with one request added. *)
Theorem call_keeps_globals_and_sends_at_most_once
    (w : world) (league_name season : string) :
  globs (snd (get_league_standings league_name season w)) = globs w /\
  network (snd (get_league_standings league_name season w)) = network w /\
  (sent (snd (get_league_standings league_name season w)) = sent w \/
   exists rq,
     sent (snd (get_league_standings league_name season w))
     = (sent w ++ [rq])%list).
Proof.
  destruct (truthy (LEAGUE_MAP (globs w) !! lower league_name)) eqn:Ht.
  - destruct (LEAGUE_MAP (globs w) !! lower league_name) as [id |] eqn:Hid;
      [| discriminate Ht].
    assert (Hnz : id <> 0) by (intros ->; discriminate Ht).
    rewrite (run_resolved _ _ _ _ Hid Hnz). cbn.
    split; [reflexivity |]. split; [reflexivity |]. right. eexists. reflexivity.
  - rewrite (run_unresolved _ _ _ Ht). cbn. auto.
Qed.

(** X3. No [RequestException] leaves the tool: whatever the input and the
    network, the call does not end in one. *)
Theorem no_request_exception_escapes
    (w : world) (league_name season text : string) :
  fst (get_league_standings league_name season w)
  <> Raise (RequestException text).
Proof.
  destruct (truthy (LEAGUE_MAP (globs w) !! lower league_name)) eqn:Ht.
  - destruct (LEAGUE_MAP (globs w) !! lower league_name) as [id |] eqn:Hid;
      [| discriminate Ht].
    assert (Hnz : id <> 0) by (intros ->; discriminate Ht).
    rewrite (run_resolved _ _ _ _ Hid Hnz). cbn [fst].
    destruct (after_reply _) as [v | []]; cbn; discriminate.
  - rewrite (run_unresolved _ _ _ Ht). discriminate.
Qed.

(** X4. An answer with a passing status whose body is not JSON is
    reported like a failed request: [response.json()] raises the library's
    [JSONDecodeError], the [except] clause catches it, and the tool returns
    [{"error": "API request failed: <text>"}]. *)
Theorem undecodable_body_is_reported
    (w : world) (league_name season : string) (league_id : Z)
    (r : Response) (text : string) :
  LEAGUE_MAP (globs w) !! lower league_name = Some league_id ->
  league_id <> 0 ->
  network w (standings_request (globs w) league_id season) = Answer r ->
  passes r ->
  body r = NotJson text ->
  fst (get_league_standings league_name season w)
  = Ok (JObj [("error", JStr ("API request failed: " +:+ text))]).
Proof.
  intros Hid Hnz Hnet Hst Hbody.
  rewrite (run_passing_answer _ _ _ _ _ Hid Hnz Hnet Hst).
  unfold response_json. rewrite Hbody. reflexivity.
Qed.

Lemma undecodable_body_is_reported_witness :
  fst (get_league_standings "Serie A" "2024"
         (world_replying None (Answer html_response)))
  = Ok (JObj [("error",
               JStr ("API request failed: "
                       +:+ "Expecting value: line 1 column 1 (char 0)"))]).
Proof.
  apply (undecodable_body_is_reported
           (world_replying None (Answer html_response))
           "Serie A" "2024" 135 html_response).
  - vm_compute. reflexivity.
  - lia.
  - reflexivity.
  - unfold passes. cbn. lia.
  - reflexivity.
Defined.

(** X5. A parsed body that is not a JSON object (a list, a string, a
    number, [true], [null]) has no [get] method: the call raises
    [AttributeError], which the [except] clause does not catch. *)
Theorem non_object_body_raises
    (w : world) (league_name season : string) (league_id : Z)
    (r : Response) (data : json) :
  LEAGUE_MAP (globs w) !! lower league_name = Some league_id ->
  league_id <> 0 ->
  network w (standings_request (globs w) league_id season) = Answer r ->
  passes r ->
  body r = Json data ->
  (forall fields, data <> JObj fields) ->
  fst (get_league_standings league_name season w) = Raise AttributeError.
Proof.
  intros Hid Hnz Hnet Hst Hbody Hshape.
  rewrite (run_passing_answer _ _ _ _ _ Hid Hnz Hnet Hst).
  unfold response_json. rewrite Hbody. cbn [fst res_bind].
  destruct data; try reflexivity. exfalso. exact (Hshape _ eq_refl).
Qed.

Lemma non_object_body_raises_witness :
  fst (get_league_standings "Serie A" "2024"
         (world_replying None (Answer (ok_response (JArr [])))))
  = Raise AttributeError.
Proof.
  apply (non_object_body_raises
           (world_replying None (Answer (ok_response (JArr []))))
           "Serie A" "2024" 135 (ok_response (JArr [])) (JArr [])).
  - vm_compute. reflexivity.
  - lia.
  - reflexivity.
  - unfold passes. cbn. lia.
  - reflexivity.
  - intros fields. discriminate.
Defined.

(** ** Beyond the claims: the reshaping *)

Lemma format_team_sound entry row :
  format_team entry = Ok row -> team_standing_record entry = Some row.
Proof.
  unfold format_team, team_standing_record, getitem_str. cbn [at_path].
  destruct entry as [| | | | | fields]; try discriminate.
  destruct (assoc "rank" fields) as [rank |]; [| discriminate].
  destruct (assoc "team" fields) as [[| | | | | tfields] |]; try discriminate.
  cbn [res_bind].
  destruct (assoc "name" tfields) as [name |]; [| discriminate].
  destruct (assoc "points" fields) as [points |]; [| discriminate].
  destruct (assoc "all" fields) as [[| | | | | afields] |]; try discriminate.
  cbn [res_bind].
  destruct (assoc "played" afields) as [played |]; [| discriminate].
  destruct (assoc "win" afields) as [win |]; [| discriminate].
  destruct (assoc "draw" afields) as [draw |]; [| discriminate].
  destruct (assoc "lose" afields) as [lose |]; [| discriminate].
  cbn [res_bind]. intros H. injection H as <-. reflexivity.
Qed.

Lemma getitem_str_fault v k e :
  getitem_str v k = Raise e -> structural_fault e.
Proof.
  unfold getitem_str, structural_fault.
  destruct v as [| | | | | fields]; try (intros H; injection H as <-; auto).
  destruct (assoc k fields); [discriminate |].
  intros H. injection H as <-. eauto.
Qed.

Lemma format_team_fault team e :
  format_team team = Raise e -> structural_fault e.
Proof.
  unfold format_team. intros H.
  repeat match type of H with
         | context [res_bind ?m _] =>
             destruct m eqn:?; cbn [res_bind] in H;
             [| injection H as <-; eapply getitem_str_fault; eassumption]
         end.
  discriminate H.
Qed.

Lemma comprehension_sound entries rows :
  comprehension format_team entries = Ok rows ->
  Forall2 (fun e row => team_standing_record e = Some row) entries rows.
Proof.
  revert rows. induction entries as [| e entries IH]; intros rows; cbn.
  - intros H. injection H as <-. constructor.
  - destruct (format_team e) as [row |] eqn:Hrow; cbn; [| discriminate].
    destruct (comprehension format_team entries) as [rest |]; cbn; [| discriminate].
    intros H. injection H as <-.
    constructor; [exact (format_team_sound _ _ Hrow) | apply IH; reflexivity].
Qed.

Lemma comprehension_first_failure good bad rest e :
  Forall (fun x => is_Some (team_standing_record x)) good ->
  format_team bad = Raise e ->
  comprehension format_team (good ++ bad :: rest) = Raise e.
Proof.
  intros Hgood Hbad. induction Hgood as [| x good [row Hrow] _ IH]; cbn.
  - rewrite Hbad. reflexivity.
  - rewrite (format_team_record _ _ Hrow). cbn. rewrite IH. reflexivity.
Qed.

Lemma standings_groups_path data groups :
  standings_groups data = Ok groups -> at_path groups_path data = Some groups.
Proof.
  unfold standings_groups, groups_path, getitem_str, getitem_int. cbn [at_path].
  destruct data as [| | | | | fields]; try discriminate.
  destruct (assoc "response" fields) as [resp |]; [| discriminate].
  cbn [res_bind].
  destruct resp as [| | | s | items |]; try discriminate.
  - destruct (String.get 0 s); discriminate.
  - destruct (items !! 0%nat) as [first |]; [| discriminate].
    cbn [res_bind].
    destruct first as [| | | | | ffields]; try discriminate.
    destruct (assoc "league" ffields) as [league |]; [| discriminate].
    cbn [res_bind].
    destruct league as [| | | | | lfields]; try discriminate.
    destruct (assoc "standings" lfields) as [g |]; [| discriminate].
    intros H. injection H as <-. reflexivity.
Qed.

(** X6. The row the tool builds for an entry is the Team Standing Record
    of that entry, and it builds one exactly when the entry carries all
    seven fields; an entry lacking one ends in [KeyError] or [TypeError]. *)
Theorem format_team_builds_the_record (entry : json) :
  (forall row,
     format_team entry = Ok row <-> team_standing_record entry = Some row) /\
  (team_standing_record entry = None <->
   exists e, format_team entry = Raise e /\ structural_fault e).
Proof.
  split.
  - intros row. split; [apply format_team_sound | apply format_team_record].
  - split.
    + intros Hnone. destruct (format_team entry) as [row | e] eqn:Hfmt.
      * rewrite (format_team_sound _ _ Hfmt) in Hnone. discriminate.
      * exists e. split; [reflexivity | exact (format_team_fault _ _ Hfmt)].
    + intros (e & Hraise & _).
      destruct (team_standing_record entry) as [row |] eqn:Hrec; [| reflexivity].
      rewrite (format_team_record _ _ Hrec) in Hraise. discriminate.
Qed.

(** X7. No partial results: when an entry of the first standings group
    lacks one of the seven fields, the call returns no rows at all. It
    raises the [KeyError] or [TypeError] of the first such entry, the
    entries before it notwithstanding. *)
Theorem deficient_entry_fails_the_call
    (w : world) (league_name season : string) (league_id : Z)
    (r : Response) (data : json) (good : list json) (bad : json)
    (rest : list json) :
  LEAGUE_MAP (globs w) !! lower league_name = Some league_id ->
  league_id <> 0 ->
  network w (standings_request (globs w) league_id season) = Answer r ->
  passes r ->
  body r = Json data ->
  at_path first_group_path data = Some (JArr (good ++ bad :: rest)) ->
  Forall (fun e => is_Some (team_standing_record e)) good ->
  team_standing_record bad = None ->
  exists e,
    format_team bad = Raise e /\ structural_fault e /\
    fst (get_league_standings league_name season w) = Raise e.
Proof.
  intros Hid Hnz Hnet Hst Hbody Hpath Hgood Hbad.
  destruct (format_team bad) as [row | e] eqn:Hraise.
  { rewrite (format_team_sound _ _ Hraise) in Hbad. discriminate. }
  assert (Hfault := format_team_fault _ _ Hraise).
  exists e. split; [reflexivity |]. split; [exact Hfault |].
  rewrite (run_passing_answer _ _ _ _ _ Hid Hnz Hnet Hst).
  unfold response_json. rewrite Hbody. cbn [fst res_bind].
  rewrite (format_standings_first_group _ _ Hpath).
  unfold format_group. cbn [iterate res_bind].
  rewrite (comprehension_first_failure _ _ _ _ Hgood Hraise). cbn [res_bind].
  destruct Hfault as [-> | (k & ->)]; reflexivity.
Qed.

Lemma deficient_entry_fails_the_call_witness :
  exists e,
    format_team nameless_team = Raise e /\ structural_fault e /\
    fst (get_league_standings "La Liga" "2024"
           (world_replying None
              (Answer (ok_response
                         (provider_doc [JArr [real_madrid; nameless_team]])))))
    = Raise e.
Proof.
  apply (deficient_entry_fails_the_call
           (world_replying None
              (Answer (ok_response
                         (provider_doc [JArr [real_madrid; nameless_team]]))))
           "La Liga" "2024" 140
           (ok_response (provider_doc [JArr [real_madrid; nameless_team]]))
           (provider_doc [JArr [real_madrid; nameless_team]])
           [real_madrid] nameless_team []).
  - vm_compute. reflexivity.
  - lia.
  - reflexivity.
  - unfold passes. cbn. lia.
  - reflexivity.
  - reflexivity.
  - constructor; [eexists; reflexivity | constructor].
  - reflexivity.
Defined.

Lemma format_group_returns_list g v :
  format_group g = Ok v -> exists rows, v = JArr rows.
Proof.
  unfold format_group.
  destruct (iterate g) as [teams |]; cbn; [| discriminate].
  destruct (comprehension format_team teams) as [rows |]; cbn; [| discriminate].
  intros H. injection H as <-. eauto.
Qed.

Lemma format_group_rows g rows :
  format_group g = Ok (JArr rows) ->
  rows <> [] ->
  exists entries,
    g = JArr entries /\
    Forall2 (fun e row => team_standing_record e = Some row) entries rows.
Proof.
  unfold format_group. intros H Hne.
  destruct g as [| | | s | entries | fields]; try discriminate H.
  - destruct s as [| c s]; cbn in H.
    + injection H as <-. contradiction.
    + discriminate H.
  - cbn [iterate res_bind] in H.
    destruct (comprehension format_team entries) as [rows' |] eqn:Hrows;
      cbn in H; [| discriminate H].
    injection H as <-. exists entries. split; [reflexivity |].
    exact (comprehension_sound _ _ Hrows).
  - destruct fields as [| [k v] fields]; cbn in H.
    + injection H as <-. contradiction.
    + discriminate H.
Qed.

(** What a returned value says about the document it was made from. *)
Lemma format_standings_inv data v :
  format_standings data = Ok v ->
  (v = no_standings /\
   exists fields,
     data = JObj fields /\
     (assoc "response" fields = None \/
      (exists resp, assoc "response" fields = Some resp /\ truthy resp = false) \/
      (exists groups,
         at_path groups_path data = Some groups /\ truthy groups = false)))
  \/
  (exists groups g rows,
     at_path groups_path data = Some groups /\
     getitem_int groups 0 = Ok g /\
     v = JArr rows /\
     format_group g = Ok (JArr rows)).
Proof.
  unfold format_standings. intros H.
  destruct data as [| | | | | fields]; try discriminate H.
  cbn [dict_get res_bind] in H.
  destruct (assoc "response" fields) as [resp |] eqn:Hresp; cbn [default] in H.
  - unfold from_option, id in H.
    destruct (truthy resp) eqn:Htrue; cbn [negb res_bind] in H.
    + destruct (standings_groups (JObj fields)) as [groups |] eqn:Hgroups;
        cbn [res_bind] in H; [| discriminate H].
      assert (Hpath := standings_groups_path _ _ Hgroups).
      destruct (truthy groups) eqn:Hgtrue; cbn [negb] in H.
      * right.
        destruct (getitem_int groups 0) as [g |] eqn:Hg;
          cbn [res_bind] in H; [| discriminate H].
        fold (format_group g) in H.
        destruct (format_group_returns_list _ _ H) as (rows & ->).
        exists groups, g, rows. auto.
      * injection H as <-. left. split; [reflexivity |].
        exists fields. split; [reflexivity |]. right. right. eauto.
    + injection H as <-. left. split; [reflexivity |].
      exists fields. split; [reflexivity |]. right. left. eauto.
  - unfold from_option in H. cbn in H. injection H as <-.
    left. split; [reflexivity |]. exists fields. auto.
Qed.

Lemma caught_list_or_no_standings m v :
  caught m = Ok v ->
  (exists rows, v = JArr rows) \/ v = no_standings ->
  m = Ok v.
Proof.
  destruct m as [v' | []]; cbn; intros H Hv; try discriminate H.
  - exact H.
  - injection H as <-. destruct Hv as [(rows & Hv) | Hv]; discriminate Hv.
Qed.

(** X8. Rows come from nowhere but the first standings group: when the
    call returns a non-empty list, the document has a list at
    [response[0].league.standings[0]], the returned list has one row per
    entry of it, in its order, and each row is the Team Standing Record of
    its entry. *)
Theorem returned_rows_come_from_first_group
    (w : world) (league_name season : string) (league_id : Z)
    (r : Response) (data : json) (rows : list json) :
  LEAGUE_MAP (globs w) !! lower league_name = Some league_id ->
  league_id <> 0 ->
  network w (standings_request (globs w) league_id season) = Answer r ->
  passes r ->
  body r = Json data ->
  fst (get_league_standings league_name season w) = Ok (JArr rows) ->
  rows <> [] ->
  exists entries,
    at_path first_group_path data = Some (JArr entries) /\
    length entries = length rows /\
    Forall2 (fun e row => team_standing_record e = Some row) entries rows.
Proof.
  intros Hid Hnz Hnet Hst Hbody Hrun Hne.
  rewrite (run_passing_answer _ _ _ _ _ Hid Hnz Hnet Hst) in Hrun.
  unfold response_json in Hrun. rewrite Hbody in Hrun. cbn [fst res_bind] in Hrun.
  apply caught_list_or_no_standings in Hrun; [| left; eauto].
  destruct (format_standings_inv _ _ Hrun)
    as [(Hv & _) | (groups & g & rows' & Hpath & Hg & Hv & Hfmt)];
    [discriminate Hv |].
  injection Hv as <-.
  destruct (format_group_rows _ _ Hfmt Hne) as (entries & -> & Hall).
  exists entries. split; [| split; [exact (Forall2_length _ _ _ Hall) | exact Hall]].
  change first_group_path with (groups_path ++ [Index 0])%list.
  rewrite at_path_app, Hpath.
  destruct groups as [| | | s | items |]; try discriminate Hg.
  - cbn in Hg. destruct (String.get 0 s); discriminate Hg.
  - cbn in Hg. cbn. destruct (items !! 0%nat); [| discriminate Hg].
    injection Hg as ->. reflexivity.
Qed.

Lemma returned_rows_come_from_first_group_witness :
  exists entries,
    at_path first_group_path (provider_doc [JArr [real_madrid]; away_table])
    = Some (JArr entries) /\
    length entries
    = length [JObj [("rank", JNum 1); ("team", JStr "Real Madrid");
                    ("points", JNum 90); ("games_played", JNum 38);
                    ("wins", JNum 29); ("draws", JNum 3); ("losses", JNum 6)]] /\
    Forall2 (fun e row => team_standing_record e = Some row) entries
      [JObj [("rank", JNum 1); ("team", JStr "Real Madrid");
             ("points", JNum 90); ("games_played", JNum 38);
             ("wins", JNum 29); ("draws", JNum 3); ("losses", JNum 6)]].
Proof.
  apply (returned_rows_come_from_first_group
           (world_replying None
              (Answer (ok_response (provider_doc [JArr [real_madrid]; away_table]))))
           "La Liga" "2024" 140
           (ok_response (provider_doc [JArr [real_madrid]; away_table]))).
  - vm_compute. reflexivity.
  - lia.
  - reflexivity.
  - unfold passes. cbn. lia.
  - reflexivity.
  - vm_compute. reflexivity.
  - discriminate.
Defined.

(** X9. The no-standings error is returned for nothing else than an
    empty document: when the call returns
    [{"error": "No standings found for this league and season."}], the
    body is an object whose [response] is absent or tests false, or whose
    [response[0].league.standings] tests false. *)
Theorem no_standings_means_empty_document
    (w : world) (league_name season : string) (league_id : Z)
    (r : Response) (data : json) :
  LEAGUE_MAP (globs w) !! lower league_name = Some league_id ->
  league_id <> 0 ->
  network w (standings_request (globs w) league_id season) = Answer r ->
  passes r ->
  body r = Json data ->
  fst (get_league_standings league_name season w)
  = Ok (JObj [("error", JStr "No standings found for this league and season.")]) ->
  exists fields,
    data = JObj fields /\
    (assoc "response" fields = None \/
     (exists resp, assoc "response" fields = Some resp /\ truthy resp = false) \/
     (exists groups,
        at_path groups_path data = Some groups /\ truthy groups = false)).
Proof.
  intros Hid Hnz Hnet Hst Hbody Hrun.
  rewrite (run_passing_answer _ _ _ _ _ Hid Hnz Hnet Hst) in Hrun.
  unfold response_json in Hrun. rewrite Hbody in Hrun. cbn [fst res_bind] in Hrun.
  apply caught_list_or_no_standings in Hrun; [| right; reflexivity].
  destruct (format_standings_inv _ _ Hrun)
    as [(_ & Hdoc) | (groups & g & rows & _ & _ & Hv & _)];
    [exact Hdoc | discriminate Hv].
Qed.

Lemma no_standings_means_empty_document_witness :
  exists fields,
    provider_doc [] = JObj fields /\
    (assoc "response" fields = None \/
     (exists resp, assoc "response" fields = Some resp /\ truthy resp = false) \/
     (exists groups,
        at_path groups_path (provider_doc []) = Some groups /\
        truthy groups = false)).
Proof.
  apply (no_standings_means_empty_document
           (world_replying None (Answer (ok_response (provider_doc []))))
           "MLS" "2031" 253 (ok_response (provider_doc []))).
  - vm_compute. reflexivity.
  - lia.
  - reflexivity.
  - unfold passes. cbn. lia.
  - reflexivity.
  - vm_compute. reflexivity.
Defined.

(** ** Beyond the claims: names, IDs and what is returned *)

Lemma lower_char_idempotent c : lower_char (lower_char c) = lower_char c.
Proof. destruct c as [[] [] [] [] [] [] [] []]; reflexivity. Qed.

Lemma lower_idempotent s : lower (lower s) = lower s.
Proof.
  induction s as [| c s IH]; [reflexivity |].
  cbn. rewrite lower_char_idempotent, IH. reflexivity.
Qed.

Lemma same_letter_lower a b : same_letter a b -> lower_char a = lower_char b.
Proof.
  intros [a' | a' b' Hup Hb | a' b' Hup Ha].
  - reflexivity.
  - rewrite (lower_char_upper _ Hup), lower_char_other.
    + rewrite <- Hb, ascii_nat_embedding. reflexivity.
    + unfold is_upper in *. lia.
  - rewrite (lower_char_upper _ Hup), lower_char_other.
    + rewrite <- Ha, ascii_nat_embedding. reflexivity.
    + unfold is_upper in *. lia.
Qed.

Lemma ascii_spellings_lower a b : ascii_spellings a b -> lower a = lower b.
Proof.
  induction 1 as [| a b s t _ _ Hab _ IH]; [reflexivity |].
  cbn. rewrite (same_letter_lower _ _ Hab), IH. reflexivity.
Qed.

(** X10. For ASCII names, spelling does not matter, whatever the registry
    holds: two names that differ in the case of letters only resolve alike,
    a name resolves as its lowercase form does, and for a league that
    resolves the whole call (request sent, value returned or exception
    raised) is the same for both spellings. *)
Theorem spellings_resolve_alike
    (w : world) (a b season : string) :
  ascii_spellings a b ->
  _get_league_id a w = _get_league_id b w /\
  (forall lowered,
     lowercase_of a lowered -> _get_league_id lowered w = _get_league_id a w) /\
  (forall league_id,
     fst (_get_league_id a w) = Ok (Some league_id) ->
     league_id <> 0 ->
     get_league_standings a season w = get_league_standings b season w).
Proof.
  intros Hvar. assert (Hlow := ascii_spellings_lower _ _ Hvar).
  rewrite !get_league_id_run, Hlow.
  split; [reflexivity |]. split.
  - intros lowered Hl. rewrite get_league_id_run.
    rewrite (lowercase_of_unique _ _ Hl), lower_idempotent, Hlow. reflexivity.
  - cbn [fst]. intros league_id Hid Hnz. injection Hid as Hid.
    rewrite (run_resolved b _ _ _ Hid Hnz).
    rewrite <- Hlow in Hid. rewrite (run_resolved a _ _ _ Hid Hnz). reflexivity.
Qed.

Lemma spellings_resolve_alike_witness :
  _get_league_id "MLs" (world_replying None (Answer html_response))
  = _get_league_id "mLS" (world_replying None (Answer html_response)) /\
  (forall lowered,
     lowercase_of "MLs" lowered ->
     _get_league_id lowered (world_replying None (Answer html_response))
     = _get_league_id "MLs" (world_replying None (Answer html_response))) /\
  (forall league_id,
     fst (_get_league_id "MLs" (world_replying None (Answer html_response)))
     = Ok (Some league_id) ->
     league_id <> 0 ->
     get_league_standings "MLs" "2024" (world_replying None (Answer html_response))
     = get_league_standings "mLS" "2024"
         (world_replying None (Answer html_response))).
Proof.
  apply (spellings_resolve_alike
           (world_replying None (Answer html_response)) "MLs" "mLS" "2024").
  apply ascii_spellings_cons;
    [vm_compute; lia | vm_compute; lia
     | apply same_letter_up_low; [unfold is_upper; vm_compute; lia | reflexivity] |].
  apply ascii_spellings_cons;
    [vm_compute; lia | vm_compute; lia | apply same_letter_eq |].
  apply ascii_spellings_cons;
    [vm_compute; lia | vm_compute; lia
     | apply same_letter_low_up; [unfold is_upper; vm_compute; lia | reflexivity] |].
  apply ascii_spellings_nil.
Defined.

(** X11. The resolved ID is tested for truth, not for [None]: were the
    registry to map a league to the ID 0, that league would be answered
    with the unknown-league error, and no request would be sent. *)
Theorem zero_id_counts_as_unknown
    (w : world) (league_name season : string) :
  LEAGUE_MAP (globs w) !! lower league_name = Some 0 ->
  get_league_standings league_name season w
  = (Ok (JObj [("error",
                JStr ("Could not find a league with the name '"
                        +:+ league_name +:+ "'."))]), w).
Proof.
  intros Hid. apply run_unresolved. rewrite Hid. reflexivity.
Qed.

Lemma zero_id_counts_as_unknown_witness :
  get_league_standings "Friendlies" "2024"
    (world_with_registry registry_with_zero (TransportFailure "down"))
  = (Ok (JObj [("error",
                JStr ("Could not find a league with the name '"
                        +:+ "Friendlies" +:+ "'."))]),
     world_with_registry registry_with_zero (TransportFailure "down")).
Proof.
  apply (zero_id_counts_as_unknown
           (world_with_registry registry_with_zero (TransportFailure "down"))
           "Friendlies" "2024").
  vm_compute. reflexivity.
Defined.

(** X12. Every value the tool returns is one of four things: a list of
    Team Standing Records (dicts with exactly the seven output fields), the
    unknown-league error for the name given, the no-standings error, or a
    request-failed error. A returned list never holds an error object. *)
Theorem returned_value_is_rows_or_one_of_three_errors
    (w : world) (league_name season : string) (v : json) :
  fst (get_league_standings league_name season w) = Ok v ->
  (exists rows, v = JArr rows /\ Forall is_standing_record rows) \/
  v = JObj [("error",
             JStr ("Could not find a league with the name '"
                     +:+ league_name +:+ "'."))] \/
  v = JObj [("error", JStr "No standings found for this league and season.")] \/
  (exists text, v = JObj [("error", JStr ("API request failed: " +:+ text))]).
Proof.
  destruct (truthy (LEAGUE_MAP (globs w) !! lower league_name)) eqn:Ht.
  - destruct (LEAGUE_MAP (globs w) !! lower league_name) as [id |] eqn:Hid;
      [| discriminate Ht].
    assert (Hnz : id <> 0) by (intros ->; discriminate Ht).
    rewrite (run_resolved _ _ _ _ Hid Hnz). cbn [fst].
    destruct (after_reply _) as [v' | []] eqn:Hreply; cbn; try discriminate.
    + intros H. injection H as <-.
      destruct (network w _) as [text | r]; [discriminate Hreply |].
      unfold after_reply in Hreply.
      destruct (raise_for_status r); cbn in Hreply; [| discriminate Hreply].
      destruct (response_json r); cbn in Hreply; [| discriminate Hreply].
      destruct (format_standings_shape _ _ Hreply) as [-> | Hrows]; auto.
    + intros H. injection H as <-. right. right. right. eauto.
  - rewrite (run_unresolved _ _ _ Ht). cbn.
    intros H. injection H as <-. auto.
Qed.

Lemma returned_value_is_rows_or_one_of_three_errors_witness :
  (exists rows, JArr [] = JArr rows /\ Forall is_standing_record rows) \/
  JArr [] = JObj [("error",
                   JStr ("Could not find a league with the name '"
                           +:+ "Bundesliga" +:+ "'."))] \/
  JArr [] = JObj [("error", JStr "No standings found for this league and season.")] \/
  (exists text, JArr [] = JObj [("error", JStr ("API request failed: " +:+ text))]).
Proof.
  apply (returned_value_is_rows_or_one_of_three_errors
           (world_replying None (Answer (ok_response (provider_doc [JArr []]))))
           "Bundesliga" "2024" (JArr [])).
  vm_compute. reflexivity.
Defined.

(** X13. Among the answers [raise_for_status] lets through, the status,
    the reason phrase and the URL play no part: two such answers with the
    same body give the same result, a 300 as a 200. *)
Theorem passing_answers_differ_by_body_only
    (w1 w2 : world) (league_name season : string) (r1 r2 : Response) :
  globs w1 = globs w2 ->
  (forall rq, network w1 rq = Answer r1) ->
  (forall rq, network w2 rq = Answer r2) ->
  passes r1 ->
  passes r2 ->
  body r1 = body r2 ->
  fst (get_league_standings league_name season w1)
  = fst (get_league_standings league_name season w2).
Proof.
  intros Hg Hn1 Hn2 Hs1 Hs2 Hbody.
  destruct (truthy (LEAGUE_MAP (globs w1) !! lower league_name)) eqn:Ht.
  - destruct (LEAGUE_MAP (globs w1) !! lower league_name) as [id |] eqn:Hid;
      [| discriminate Ht].
    assert (Hnz : id <> 0) by (intros ->; discriminate Ht).
    rewrite (run_passing_answer w1 _ _ _ r1 Hid Hnz (Hn1 _) Hs1).
    rewrite Hg in Hid.
    rewrite (run_passing_answer w2 _ _ _ r2 Hid Hnz (Hn2 _) Hs2).
    unfold response_json. rewrite Hbody. reflexivity.
  - rewrite (run_unresolved _ _ w1 Ht).
    rewrite Hg in Ht. rewrite (run_unresolved _ _ w2 Ht). reflexivity.
Qed.

Lemma passing_answers_differ_by_body_only_witness :
  fst (get_league_standings "La Liga" "2024"
         (world_replying None (Answer multiple_choices_response)))
  = fst (get_league_standings "La Liga" "2024"
           (world_replying None
              (Answer (ok_response (provider_doc [JArr [real_madrid]]))))).
Proof.
  apply (passing_answers_differ_by_body_only _ _ _ _
           multiple_choices_response
           (ok_response (provider_doc [JArr [real_madrid]]))).
  - reflexivity.
  - intros rq. reflexivity.
  - intros rq. reflexivity.
  - unfold passes. cbn. lia.
  - unfold passes. cbn. lia.
  - reflexivity.
Defined.

(** X14. A first standings group of the wrong type is a [TypeError]: when
    [response[0].league.standings[0]] is [null], a boolean, a number, a
    non-empty string or a non-empty object, the comprehension cannot
    iterate it or cannot subscript what it yields, and the call raises. *)
Theorem wrong_typed_group_raises
    (w : world) (league_name season : string) (league_id : Z)
    (r : Response) (data g : json) :
  LEAGUE_MAP (globs w) !! lower league_name = Some league_id ->
  league_id <> 0 ->
  network w (standings_request (globs w) league_id season) = Answer r ->
  passes r ->
  body r = Json data ->
  at_path first_group_path data = Some g ->
  (forall entries, g <> JArr entries) ->
  g <> JStr "" ->
  g <> JObj [] ->
  fst (get_league_standings league_name season w) = Raise TypeError.
Proof.
  intros Hid Hnz Hnet Hst Hbody Hpath Hlist Hstr Hobj.
  rewrite (run_passing_answer _ _ _ _ _ Hid Hnz Hnet Hst).
  unfold response_json. rewrite Hbody. cbn [fst res_bind].
  rewrite (format_standings_first_group _ _ Hpath). unfold format_group.
  destruct g as [| | | s | entries | fields]; try reflexivity.
  - destruct s; [contradiction | reflexivity].
  - exfalso. exact (Hlist _ eq_refl).
  - destruct fields as [| [k v] fields]; [contradiction | reflexivity].
Qed.

Lemma wrong_typed_group_raises_witness :
  fst (get_league_standings "MLS" "2024"
         (world_replying None (Answer (ok_response (provider_doc [JNull])))))
  = Raise TypeError.
Proof.
  apply (wrong_typed_group_raises
           (world_replying None (Answer (ok_response (provider_doc [JNull]))))
           "MLS" "2024" 253 (ok_response (provider_doc [JNull]))
           (provider_doc [JNull]) JNull).
  - vm_compute. reflexivity.
  - lia.
  - reflexivity.
  - unfold passes. cbn. lia.
  - reflexivity.
  - reflexivity.
  - intros entries. discriminate.
  - discriminate.
  - discriminate.
Defined.
